(** * CelestixLCD: the HID report layer of the Celestix knob-and-LCD driver

    A shallow embedding of [celestixlcd.py] (class [CelestixLCD]) and the
    properties of its report encoding, key decoding and session life cycle.

    Python values are modelled as follows:
    - an [int] is a [Z];
    - a [bytes] object is a [list Z] whose elements lie in [0, 255];
    - a [str] is the list of its Unicode code points ([N]);
    - the value returned by [read], a [str] or [None], is an [option string];
    - a method is a function from the state of the world to an outcome
      (a value or a raised exception) and the state it leaves behind.

    The driver checks its arguments with [assert] statements, which the
    interpreter executes by default and compiles away when it is started
    with [-O] or [PYTHONOPTIMIZE]; the mode is part of the host the driver
    runs on, and every theorem says which mode it needs, if any. *)

From Stdlib Require Import ZArith NArith List String Ascii Bool Lia.
Import ListNotations.
Open Scope string_scope.
Open Scope list_scope.
Open Scope Z_scope.

(** ** Python values and built-ins *)

Definition bytes := list Z.
Definition str := list N.

(** [len(x)] *)
Definition len {A : Type} (l : list A) : Z := Z.of_nat (List.length l).

(** [bytes(n)]: [n] zero bytes. *)
Definition zeros (n : nat) : bytes := repeat 0 n.

Inductive exn : Type :=
| AssertionError (msg : string)
| OverflowError
| RuntimeError (msg : string)
| AttributeError (attr : string)
| HIDException (msg : string)
| OSError (msg : string).

Inductive outcome (A : Type) : Type :=
| Return (a : A)
| Raise (e : exn).
Arguments Return {A} a.
Arguments Raise {A} e.

(** Big-endian digits of [n] in base 256, [size] of them. *)
Fixpoint be_digits (size : nat) (n : Z) : bytes :=
  match size with
  | O => []
  | S k => be_digits k (n / 256) ++ [n mod 256]
  end.

(** [n.to_bytes(size, 'big')]: unsigned, raises [OverflowError] when [n] is
    negative or does not fit. *)
Definition to_bytes (n : Z) (size : nat) : outcome bytes :=
  if (n <? 0) || (256 ^ Z.of_nat size <=? n) then Raise OverflowError
  else Return (be_digits size n).

(** One character under [encode('iso-8859-1', 'replace')]: a code point below
    256 is its own byte, any other becomes [?]. *)
Definition latin1_replace (c : N) : Z :=
  if (c <? 256)%N then Z.of_N c else 63.

(** [s.encode('iso-8859-1', 'replace')] *)
Definition encode (s : str) : bytes := map latin1_replace s.

Definition bytes_eqb (a b : bytes) : bool :=
  if list_eq_dec Z.eq_dec a b then true else false.

Definition hex_digit (n : Z) : ascii :=
  nth (Z.to_nat n) (list_ascii_of_string "0123456789abcdef") "0"%char.

(** [b.hex()] *)
Fixpoint hex (b : bytes) : string :=
  match b with
  | [] => EmptyString
  | x :: rest => String (hex_digit (x / 16)) (String (hex_digit (x mod 16)) (hex rest))
  end.

(** ** The collaborators

    The driver talks to two things it does not implement: the [hid] module
    (enumeration, a device object with [read], [write] and [close]) and the
    [/usr/bin/beep] program started through [subprocess.call].  Their
    behaviour is a parameter of the development.  Reads, writes, opening a
    device and spawning a process may raise; releasing a handle has no
    failure mode.  The host also fixes how the interpreter was started. *)

Class Host : Type := {
  (** The interpreter runs with [-O]: [__debug__] is false and [assert]
      statements are compiled away. *)
  python_O : bool;
  Device : Type;
  (** [hid.enumerate(vid, pid)]: the ['path'] entry of each matching device. *)
  hid_enumerate : Z -> Z -> list bytes;
  (** [hid.Device(path=p)] *)
  hid_Device : bytes -> outcome Device;
  (** [device.read(size, timeout)] *)
  dev_read : Device -> Z -> option Z -> outcome bytes * Device;
  (** [device.write(data)], returning the number of bytes written. *)
  dev_write : Device -> bytes -> outcome Z * Device;
  (** [device.close()] *)
  dev_close : Device -> Device;
  Speaker : Type;
  (** [subprocess.call(args)], returning the exit status. *)
  subprocess_call : list string -> Speaker -> outcome Z * Speaker
}.

Module CelestixLCD.
Section Driver.
Context {host : Host}.

(** The state a method runs in: the attributes of [self] ([None] for an
    attribute that was never bound), the device behind [self._device],
    what was printed, and the speaker.  [written] is a ghost trace: every
    buffer handed to [self._device.write], in order. *)
Record World : Type := mkWorld {
  _vid : option Z;
  _pid : option Z;
  _path : option bytes;
  _device : option Device;
  written : list bytes;
  stdout : list bytes;
  speaker : Speaker
}.

Definition M (A : Type) : Type := World -> outcome A * World.

Definition ret {A : Type} (a : A) : M A := fun w => (Return a, w).

Definition raise {A : Type} (e : exn) : M A := fun w => (Raise e, w).

Definition bind {A B : Type} (m : M A) (k : A -> M B) : M B :=
  fun w =>
    match m w with
    | (Return a, w') => k a w'
    | (Raise e, w') => (Raise e, w')
    end.

Notation "x <- m ;; k" := (bind m (fun x => k))
  (at level 61, m at next level, right associativity).
Notation "m ;; k" := (bind m (fun _ => k))
  (at level 61, right associativity).

(** An [outcome] computed without touching the world. *)
Definition lift {A : Type} (o : outcome A) : M A := fun w => (o, w).

(** [assert cond, msg]: nothing at all under [-O]. *)
Definition assert (cond : bool) (msg : string) : M unit :=
  if python_O then ret tt
  else if cond then ret tt else raise (AssertionError msg).

Definition set_vid (v : Z) : M unit := fun w =>
  (Return tt, mkWorld (Some v) (_pid w) (_path w) (_device w)
                      (written w) (stdout w) (speaker w)).

Definition set_pid (v : Z) : M unit := fun w =>
  (Return tt, mkWorld (_vid w) (Some v) (_path w) (_device w)
                      (written w) (stdout w) (speaker w)).

Definition set_path (p : bytes) : M unit := fun w =>
  (Return tt, mkWorld (_vid w) (_pid w) (Some p) (_device w)
                      (written w) (stdout w) (speaker w)).

Definition with_device (d : Device) (w : World) : World :=
  mkWorld (_vid w) (_pid w) (_path w) (Some d)
          (written w) (stdout w) (speaker w).

Definition with_written (l : list bytes) (w : World) : World :=
  mkWorld (_vid w) (_pid w) (_path w) (_device w) l (stdout w) (speaker w).

(** [self._device.read(size, timeout)] *)
Definition device_read (size : Z) (timeout : option Z) : M bytes := fun w =>
  match _device w with
  | None => (Raise (AttributeError "_device"), w)
  | Some d => let (r, d') := dev_read d size timeout in (r, with_device d' w)
  end.

(** The statement [self._device.write(data)]; the count it returns is
    dropped. *)
Definition device_write (data : bytes) : M unit := fun w =>
  match _device w with
  | None => (Raise (AttributeError "_device"), w)
  | Some d =>
      let (r, d') := dev_write d data in
      let w' := with_device d' (with_written (written w ++ [data]) w) in
      match r with
      | Return _ => (Return tt, w')
      | Raise e => (Raise e, w')
      end
  end.

(** The statement [subprocess.call(args)]. *)
Definition call (args : list string) : M unit := fun w =>
  let (r, s') := subprocess_call args (speaker w) in
  let w' := mkWorld (_vid w) (_pid w) (_path w) (_device w)
                    (written w) (stdout w) s' in
  match r with
  | Return _ => (Return tt, w')
  | Raise e => (Raise e, w')
  end.

(** [print(b)] *)
Definition print (b : bytes) : M unit := fun w =>
  (Return tt, mkWorld (_vid w) (_pid w) (_path w) (_device w)
                      (written w) (stdout w ++ [b]) (speaker w)).

(** Class attributes. *)
Definition kbd_report : bytes := [0x01].
Definition lcd_report : bytes := [0x02].
Definition cmd_text : bytes := [0x00].
Definition cmd_clear : bytes := [0x01].
Definition cmd_char : bytes := [0x03].
Definition cmd_clear_len : Z := 6.

Definition __init__ : M unit :=
  set_vid 0x0CB6 ;;
  set_pid 0x0002 ;;
  match hid_enumerate 0x0CB6 0x0002 with
  | [] => raise (RuntimeError "Cannot find USB LCD device")
  | path :: _ =>
      set_path path ;;
      d <- lift (hid_Device path) ;;
      fun w => (Return tt, with_device d w)
  end.

Definition read (timeout : option Z) (beep : bool) : M (option string) :=
  keycode <- device_read 6 timeout ;;
  if bytes_eqb keycode [0x01; 0x02; 0x3A] then
    (if beep then call ["/usr/bin/beep"; "-f 1000"; "-l 20"] else ret tt) ;;
    ret (Some "select")
  else if bytes_eqb keycode [0x01; 0x02; 0x3B] then
    (if beep then call ["/usr/bin/beep"; "-f 500"; "-l 10"] else ret tt) ;;
    ret (Some "right")
  else if bytes_eqb keycode [0x01; 0x02; 0x3C] then
    (if beep then call ["/usr/bin/beep"; "-f 500"; "-l 10"] else ret tt) ;;
    ret (Some "left")
  else
    print keycode ;;
    ret None.

Definition readRaw (timeout : option Z) : M string :=
  b <- device_read 63 timeout ;;
  ret (hex b).

Definition writeRaw (data : bytes) : M unit :=
  device_write data.

Definition clear : M unit :=
  let command := lcd_report ++ cmd_clear ++ zeros 6 in
  device_write command.

Definition write_line (string : str) (line : Z) : M unit :=
  let message := firstn 40 string in
  assert ((0 <=? line) && (line <=? 1)) "Line must be 0 or 1." ;;
  let cursor_pos := 0 in
  let length := 40 in
  let endpad := repeat 32 (40 - List.length message) in
  c <- lift (to_bytes cursor_pos 1) ;;
  l <- lift (to_bytes line 1) ;;
  n <- lift (to_bytes length 1) ;;
  let payload := lcd_report ++ cmd_text ++ c ++ l ++ n ++ zeros 3 ++
                 encode message ++ endpad in
  device_write payload.

Definition write_string (string : str) (line cursor : Z) : M unit :=
  let message := firstn 40 string in
  assert ((0 <=? line) && (line <=? 1)) "Line must be 0 or 1" ;;
  assert ((0 <=? cursor) && (cursor <=? 39)) "Cursor must be 0-39" ;;
  let length := len message in
  c <- lift (to_bytes cursor 1) ;;
  l <- lift (to_bytes line 1) ;;
  n <- lift (to_bytes length 1) ;;
  let payload := lcd_report ++ cmd_text ++ c ++ l ++ n ++ zeros 3 ++
                 encode message in
  device_write payload.

(** The loop [for row in bitmap: charData = charData + row.to_bytes(1, 'big')]. *)
Fixpoint char_rows (bitmap : list Z) (charData : bytes) : outcome bytes :=
  match bitmap with
  | [] => Return charData
  | row :: rest =>
      match to_bytes row 1 with
      | Return b => char_rows rest (charData ++ b)
      | Raise e => Raise e
      end
  end.

Definition create_char (location : Z) (bitmap : list Z) : M unit :=
  assert ((0 <=? location) && (location <=? 7)) "Only locations 0-7 can be used" ;;
  assert ((1 <=? len bitmap) && (len bitmap <=? 48)) "Bitmap should have 1-48 rows" ;;
  let startpos := location * 8 in
  charData <- lift (char_rows bitmap []) ;;
  let length := len charData in
  s <- lift (to_bytes startpos 1) ;;
  n <- lift (to_bytes length 1) ;;
  let payload := lcd_report ++ cmd_char ++ s ++ [0x00] ++ n ++ zeros 3 ++
                 charData in
  device_write payload.

(** [if self._device: self._device.close()].  Reading the attribute fails
    when it was never bound; a device object is truthy, so the handle is
    released on every call.  The attribute keeps pointing at the device. *)
Definition close : M unit := fun w =>
  match _device w with
  | None => (Raise (AttributeError "_device"), w)
  | Some d => (Return tt, with_device (dev_close d) w)
  end.

Definition __enter__ : M unit := ret tt.

(** The body is the expression [self.close], which looks the method up and
    does not call it. *)
Definition __del__ : M unit := ret tt.

Definition __exit__ : M unit := close.

End Driver.
End CelestixLCD.

Import CelestixLCD.

(** ** A bench host

    A device that records what it is sent and hands out queued reports, used
    to run the driver on concrete inputs.  Like the device object of the
    [hid] package, it refuses reads and writes once it is closed.
    [optimize] says whether the interpreter runs with [-O]; [found] is what
    enumeration returns; [beep_installed] says whether [/usr/bin/beep] can
    be started. *)

Record Bench : Type := mkBench {
  is_open : bool;
  inbox : list bytes;
  outbox : list bytes
}.

Definition bench_read (d : Bench) (size : Z) (timeout : option Z)
  : outcome bytes * Bench :=
  if negb (is_open d) then (Raise (HIDException "device closed"), d)
  else
    match inbox d with
    | [] => (Return [], d)
    | r :: rest =>
        (Return (firstn (Z.to_nat size) r), mkBench (is_open d) rest (outbox d))
    end.

Definition bench_write (d : Bench) (data : bytes) : outcome Z * Bench :=
  if negb (is_open d) then (Raise (HIDException "device closed"), d)
  else (Return (len data), mkBench (is_open d) (inbox d) (outbox d ++ [data])).

Definition bench_close (d : Bench) : Bench :=
  mkBench false (inbox d) (outbox d).

Definition bench_call (beep_installed : bool) (args : list string)
  (s : list (list string)) : outcome Z * list (list string) :=
  if beep_installed then (Return 0, s ++ [args])
  else (Raise (OSError "No such file or directory"), s).

Definition bench_host (optimize : bool) (found : list bytes) (beep_installed : bool)
  : Host :=
  {| python_O := optimize;
     Device := Bench;
     hid_enumerate := fun _ _ => found;
     hid_Device := fun _ => Return (mkBench true [] []);
     dev_read := bench_read;
     dev_write := bench_write;
     dev_close := bench_close;
     Speaker := list (list string);
     subprocess_call := bench_call beep_installed |}.

(** The bench device has been released. *)
Definition bench_released (d : Bench) : Prop := is_open d = false.

(** A host with one knob-and-LCD unit plugged in, the interpreter in its
    default mode and the beep program installed. *)
Definition strict_host : Host := bench_host false [[0x31]] true.

(** The same host with the interpreter started with [-O]. *)
Definition optimized_host : Host := bench_host true [[0x31]] true.


(** A host with no matching device plugged in. *)
Definition empty_host : Host := bench_host false [] true.

(** An object on which no attribute is bound yet. *)
Definition blank {host : Host} (s : Speaker) : World :=
  mkWorld None None None None [] [] s.

(** An opened session on the bench, with [reports] waiting to be read. *)
Definition opened (reports : list bytes) : @World strict_host :=
  @mkWorld strict_host
    (Some 0x0CB6) (Some 0x0002) (Some [0x31])
    (Some (mkBench true reports [])) [] [] [].


(** The same session under an interpreter started with [-O]. *)
Definition opened_optimized (reports : list bytes) : @World optimized_host :=
  @mkWorld optimized_host
    (Some 0x0CB6) (Some 0x0002) (Some [0x31])
    (Some (mkBench true reports [])) [] [] [].

(** The reports a computation hands to the device when run from [w]. *)
Definition produced {host : Host} {A : Type} (m : M A) (w : World) : list bytes :=
  skipn (List.length (written w)) (written (snd (m w))).

(** The logical operations that encode a report. *)
Inductive operation : Type :=
| Clear
| WriteLine (text : str) (line : Z)
| WriteString (text : str) (line cursor : Z)
| CreateChar (location : Z) (bitmap : list Z).

Definition run {host : Host} (op : operation) : M unit :=
  match op with
  | Clear => clear
  | WriteLine text line => write_line text line
  | WriteString text line cursor => write_string text line cursor
  | CreateChar location bitmap => create_char location bitmap
  end.

(** Every operation of a session, as a caller may request it. *)
Inductive request : Type :=
| Read (timeout : option Z) (beep : bool)
| ReadRaw (timeout : option Z)
| WriteRaw (data : bytes)
| Encode (op : operation).

(** A computation run for its effect: whether it returned or raised. *)
Definition void {host : Host} {A : Type} (m : M A) : M unit := fun w =>
  let (o, w') := m w in
  (match o with Return _ => Return tt | Raise e => Raise e end, w').

Definition perform {host : Host} (r : request) : M unit :=
  match r with
  | Read timeout beep => void (read timeout beep)
  | ReadRaw timeout => void (readRaw timeout)
  | WriteRaw data => writeRaw data
  | Encode op => run op
  end.

(** A caller that tries each request in turn and catches what is raised. *)
Fixpoint attempt_all {host : Host} (rs : list request) (w : World)
  : list (outcome unit) * World :=
  match rs with
  | [] => ([], w)
  | r :: rest =>
      let (o, w') := perform r w in
      let (os, w'') := attempt_all rest w' in
      (o :: os, w'')
  end.

(** The session holds a device that the transport has released. *)
Definition session_closed {host : Host} (released : Device -> Prop) (w : World) : Prop :=
  exists d, _device w = Some d /\ released d.

(** [raw] ends with the bytes [suffix]. *)
Definition ends_with (raw suffix : bytes) : Prop :=
  exists front, raw = front ++ suffix.

(** What [read] gives for a recognized key when the beep flag is set: the
    key name once [subprocess.call] has returned, whatever the exit status,
    or the exception it raised. *)
Definition after_beep {host : Host} (args : list string) (name : string)
  (s : Speaker) : outcome (option string) :=
  match fst (subprocess_call args s) with
  | Return _ => Return (Some name)
  | Raise e => Raise e
  end.

(** The three key reports. *)
Definition key_select : bytes := [0x01; 0x02; 0x3A].
Definition key_right : bytes := [0x01; 0x02; 0x3B].
Definition key_left : bytes := [0x01; 0x02; 0x3C].

Definition recognized (raw : bytes) : Prop :=
  raw = key_select \/ raw = key_right \/ raw = key_left.

(** A report in the layout the LCD channel expects, of at most [size]
    bytes: an 8-byte header that starts with the LCD report number, carries
    the number of bytes that follow it at offset 4 and three zero bytes
    after that, then the payload; every element is a byte. *)
Definition framed_upto (size : nat) (r : bytes) : Prop :=
  (8 <= List.length r <= size)%nat /\
  nth 0 r 0 = 0x02 /\
  nth 4 r 0 = len r - 8 /\
  nth 5 r 0 = 0 /\ nth 6 r 0 = 0 /\ nth 7 r 0 = 0 /\
  Forall (fun b => 0 <= b < 256) r.

(** A framed report with at most 48 payload bytes, the most the driver's
    argument checks let through. *)
Definition framed (r : bytes) : Prop := framed_upto 56 r.

(** The exceptions an encoder raises on its own arguments. *)
Definition argument_error (e : exn) : Prop :=
  (exists msg, e = AssertionError msg) \/ e = OverflowError.

(** Requests run one after another; the first exception ends the run. *)
Fixpoint script {host : Host} (rs : list request) : M unit :=
  match rs with
  | [] => ret tt
  | r :: rest => bind (perform r) (fun _ => script rest)
  end.

(** The statement [with CelestixLCD() as lcd: body].  The constructor runs
    first; when it raises, nothing else runs.  Otherwise [__enter__], the
    body, and then [__exit__] on every way out of the body.  [__exit__]
    returns [None], so an exception of the body is raised again after it; an
    exception of [__exit__] itself takes its place. *)
Definition with_session {host : Host} {A : Type} (body : M A) : M A := fun w =>
  match __init__ w with
  | (Raise e, w1) => (Raise e, w1)
  | (Return _, w1) =>
      match __enter__ w1 with
      | (Raise e, w2) => (Raise e, w2)
      | (Return _, w2) =>
          let (o, w3) := body w2 in
          match __exit__ w3 with
          | (Raise e, w4) => (Raise e, w4)
          | (Return _, w4) => (o, w4)
          end
      end
  end.

(** The value of a lowercase hexadecimal digit. *)
Definition hex_value (c : ascii) : option Z :=
  (fix find (digits : list ascii) (i : Z) : option Z :=
     match digits with
     | [] => None
     | x :: rest => if Ascii.eqb x c then Some i else find rest (i + 1)
     end) (list_ascii_of_string "0123456789abcdef") 0.

(** Reads bytes back from two lowercase hexadecimal digits each. *)
Fixpoint unhex (s : string) : option bytes :=
  match s with
  | EmptyString => Some []
  | String _ EmptyString => None
  | String hi (String lo rest) =>
      match hex_value hi, hex_value lo, unhex rest with
      | Some h, Some l, Some b => Some (16 * h + l :: b)
      | _, _, _ => None
      end
  end.

(** The worlds a caller can bring an object to from [w0], by any requests
    and calls of [close], in any order, going on after exceptions. *)
Inductive reachable {host : Host} (w0 : World) : World -> Prop :=
| reach_start : reachable w0 w0
| reach_perform (w : World) (r : request) :
    reachable w0 w -> reachable w0 (snd (perform r w))
| reach_close (w : World) :
    reachable w0 w -> reachable w0 (snd (close w)).

(** * Properties *)

(** ** Built-ins *)

Lemma to_bytes_byte (n : Z) : 0 <= n < 256 -> to_bytes n 1 = Return [n].
Proof.
  intros Hn. unfold to_bytes.
  replace (n <? 0) with false by (symmetry; apply Z.ltb_ge; lia).
  replace (256 ^ Z.of_nat 1 <=? n) with false
    by (symmetry; apply Z.leb_gt; change (256 ^ Z.of_nat 1) with 256; lia).
  cbn [orb be_digits app]. now rewrite Z.mod_small.
Qed.

Lemma to_bytes_overflow (n : Z) : ~ 0 <= n < 256 -> to_bytes n 1 = Raise OverflowError.
Proof.
  intros Hn. unfold to_bytes. change (256 ^ Z.of_nat 1) with 256.
  destruct (Z.ltb_spec n 0); [reflexivity|].
  destruct (Z.leb_spec 256 n); [reflexivity|lia].
Qed.

Lemma latin1_replace_range (c : N) : 0 <= latin1_replace c < 256.
Proof.
  unfold latin1_replace. destruct (N.ltb_spec c 256); lia.
Qed.

Lemma encode_length (s : str) : List.length (encode s) = List.length s.
Proof. apply length_map. Qed.

Lemma encode_range (s : str) : Forall (fun b => 0 <= b < 256) (encode s).
Proof.
  unfold encode. induction s; cbn; constructor; auto using latin1_replace_range.
Qed.

Lemma firstn_repeat {A : Type} (x : A) (n m : nat) :
  firstn n (repeat x m) = repeat x (Nat.min n m).
Proof.
  revert m. induction n; intros [|m]; cbn; try reflexivity. now rewrite IHn.
Qed.

Lemma Forall_take {A : Type} (P : A -> Prop) (n : nat) (l : list A) :
  Forall P l -> Forall P (firstn n l).
Proof.
  intros Hl. revert n. induction Hl; intros [|n]; cbn; auto.
Qed.

Lemma char_rows_bytes (bitmap : list Z) (acc : bytes) :
  Forall (fun row => 0 <= row < 256) bitmap ->
  char_rows bitmap acc = Return (acc ++ bitmap).
Proof.
  intros Hb. revert acc. induction Hb as [|row rest Hrow _ IH]; intros acc; cbn [char_rows].
  - now rewrite app_nil_r.
  - rewrite (to_bytes_byte row Hrow), IH, <- app_assoc. reflexivity.
Qed.

Lemma char_rows_overflow (bitmap : list Z) (acc : bytes) :
  Exists (fun row => ~ 0 <= row < 256) bitmap ->
  char_rows bitmap acc = Raise OverflowError.
Proof.
  intros Hb. revert acc. induction Hb as [row rest Hrow|row rest _ IH]; intros acc; cbn [char_rows].
  - now rewrite (to_bytes_overflow row Hrow).
  - destruct (to_bytes row 1) as [b|e] eqn:E.
    + apply IH.
    + unfold to_bytes in E. destruct (_ || _); congruence.
Qed.

(** ** Talking to the device *)

Section Session.
Context {host : Host}.

Lemma assert_true (msg : string) : assert true msg = ret tt.
Proof. unfold assert. now destruct python_O. Qed.

Lemma assert_false (msg : string) :
  python_O = false -> assert false msg = raise (AssertionError msg).
Proof. unfold assert. now intros ->. Qed.

Lemma assert_cases (cond : bool) (msg : string) :
  assert cond msg = ret tt \/ assert cond msg = raise (AssertionError msg).
Proof. unfold assert. destruct python_O, cond; auto. Qed.

Lemma device_write_bound (data : bytes) (w : World) (d : Device) :
  _device w = Some d ->
  written (snd (device_write data w)) = written w ++ [data] /\
  _device (snd (device_write data w)) = Some (snd (dev_write d data)) /\
  stdout (snd (device_write data w)) = stdout w.
Proof.
  intros Hd. unfold device_write. rewrite Hd.
  destruct (dev_write d data) as [[n|e] d']; cbn; auto.
Qed.

Lemma produced_device_write (data : bytes) (w : World) (d : Device) :
  _device w = Some d -> produced (device_write data) w = [data].
Proof.
  intros Hd. unfold produced.
  destruct (device_write_bound data w d Hd) as (-> & _).
  rewrite skipn_app, skipn_all, Nat.sub_diag. reflexivity.
Qed.

(** The payload [write_line] builds, as one slice: the encoded text followed
    by spaces, cut at 40 bytes. *)
Lemma line_payload (text : str) :
  encode (firstn 40 text) ++ repeat 32 (40 - List.length (firstn 40 text))
  = firstn 40 (encode text ++ repeat 32 40).
Proof.
  rewrite firstn_app, encode_length, firstn_repeat, length_firstn.
  unfold encode. rewrite firstn_map. f_equal. f_equal. lia.
Qed.

Lemma line_payload_length (text : str) :
  List.length (firstn 40 (encode text ++ repeat 32 40)) = 40%nat.
Proof.
  rewrite length_firstn, length_app, repeat_length. lia.
Qed.

Lemma line_payload_nth (text : str) (i : nat) :
  (i < 40)%nat ->
  nth i (firstn 40 (encode text ++ repeat 32 40)) 0 =
  match nth_error text i with
  | Some c => latin1_replace c
  | None => 32
  end.
Proof.
  intros Hi. rewrite nth_firstn.
  replace (i <? 40)%nat with true by (symmetry; apply Nat.ltb_lt; lia).
  destruct (nth_error text i) as [c|] eqn:E.
  - assert (Hlt : (i < List.length text)%nat)
      by (apply nth_error_Some; congruence).
    rewrite app_nth1 by (now rewrite encode_length).
    unfold encode. rewrite (nth_indep _ 0 (latin1_replace c))
      by (now rewrite length_map).
    rewrite map_nth. f_equal. now apply nth_error_nth.
  - apply nth_error_None in E.
    rewrite app_nth2 by (rewrite encode_length; lia).
    rewrite encode_length. apply nth_repeat_lt. lia.
Qed.

(** C1: for every text and every line in {0, 1}, [write_line] hands the
    device one report of exactly 48 bytes: the header
    [02 00 cursor=00 line length=28h 00 00 00] followed by 40 payload bytes,
    the text cut at 40 characters and filled up with spaces; each character
    is one Latin-1 byte, a character outside Latin-1 becoming the byte [?]
    instead of an error. *)
Theorem write_line_report (text : str) (line : Z) (w : World) (d : Device) :
  line = 0 \/ line = 1 ->
  _device w = Some d ->
  let payload := firstn 40 (encode text ++ repeat 32 40) in
  let report := [0x02; 0x00; 0; line; 40; 0x00; 0x00; 0x00] ++ payload in
  write_line text line w = device_write report w /\
  written (snd (write_line text line w)) = written w ++ [report] /\
  List.length report = 48%nat /\
  List.length payload = 40%nat /\
  (forall i, (i < 40)%nat ->
     nth i payload 0 = match nth_error text i with
                       | Some c => if (c <? 256)%N then Z.of_N c else 63
                       | None => 32
                       end) /\
  Forall (fun b => 0 <= b < 256) report.
Proof.
  intros Hline Hd payload report.
  assert (Hrun : write_line text line w = device_write report w).
  { unfold write_line.
    replace ((0 <=? line) && (line <=? 1)) with true
      by (destruct Hline; subst; reflexivity).
    rewrite assert_true. unfold bind, lift.
    cbn [ret]. rewrite (to_bytes_byte 0), (to_bytes_byte line), (to_bytes_byte 40) by lia.
    unfold report, payload. rewrite <- line_payload. reflexivity. }
  split; [exact Hrun|]. rewrite Hrun.
  destruct (device_write_bound report w d Hd) as (Hw & _).
  split; [exact Hw|].
  assert (Hlen : List.length payload = 40%nat) by apply line_payload_length.
  split; [unfold report; rewrite length_app, Hlen; reflexivity|].
  split; [exact Hlen|].
  split; [intros i Hi; apply (line_payload_nth text i Hi)|].
  unfold report. apply Forall_app. split.
  - repeat constructor; destruct Hline; subst; lia.
  - unfold payload. apply Forall_take, Forall_app. split.
    + apply encode_range.
    + apply Forall_forall. intros b Hb. apply repeat_spec in Hb. lia.
Qed.

(** C2 (amended): for every text, line in {0, 1} and cursor in [0, 39],
    [write_string] hands the device one report whose header carries the
    cursor and the line, whose payload is the text cut at 40 characters with
    no padding, and whose length field counts the payload bytes, that is
    [min (len text) 40]: it is [len text] only for texts of at most 40
    characters. *)
Theorem write_string_report (text : str) (line cursor : Z) (w : World) (d : Device) :
  line = 0 \/ line = 1 ->
  0 <= cursor <= 39 ->
  _device w = Some d ->
  let payload := encode (firstn 40 text) in
  let report := [0x02; 0x00; cursor; line; len payload; 0x00; 0x00; 0x00] ++ payload in
  write_string text line cursor w = device_write report w /\
  written (snd (write_string text line cursor w)) = written w ++ [report] /\
  len payload = Z.min (len text) 40 /\
  (len text <= 40 -> payload = encode text /\ len payload = len text).
Proof.
  intros Hline Hcur Hd payload report.
  assert (Hlen : len payload = Z.min (len text) 40).
  { unfold payload, len. rewrite encode_length, length_firstn. lia. }
  assert (Hrun : write_string text line cursor w = device_write report w).
  { unfold write_string.
    replace ((0 <=? line) && (line <=? 1)) with true
      by (destruct Hline; subst; reflexivity).
    replace ((0 <=? cursor) && (cursor <=? 39)) with true
      by (symmetry; apply andb_true_iff; split; apply Z.leb_le; lia).
    rewrite !assert_true. unfold bind, lift.
    cbn [ret].
    assert (Hm : len (firstn 40 text) = len payload)
      by (unfold payload, len; now rewrite encode_length).
    rewrite (to_bytes_byte cursor), (to_bytes_byte line), (to_bytes_byte (len (firstn 40 text)))
      by (try rewrite Hm; unfold len in *; lia).
    rewrite Hm. reflexivity. }
  split; [exact Hrun|]. rewrite Hrun.
  destruct (device_write_bound report w d Hd) as (Hw & _).
  split; [exact Hw|]. split; [exact Hlen|].
  intros Hshort. unfold payload.
  rewrite firstn_all2 by (unfold len in Hshort; lia).
  split; [reflexivity|]. unfold len. now rewrite encode_length.
Qed.

(** C5 (amended): with assertions enabled, the interpreter's default mode,
    an argument outside its range makes the call fail on its assertion (the
    driver's precondition failure), before anything is encoded: the world
    is left as it was, so nothing is clamped and no report reaches the
    device.  [line] must be 0 or 1 for [write_line] and [write_string],
    [cursor] within [0, 39] for [write_string], [location] within [0, 7] and
    the bitmap 1 to 48 rows long for [create_char]. *)
Theorem out_of_range_rejected :
  python_O = false ->
  (forall text line w,
      ~ 0 <= line <= 1 ->
      write_line text line w = (Raise (AssertionError "Line must be 0 or 1."), w)) /\
  (forall text line cursor w,
      ~ 0 <= line <= 1 ->
      write_string text line cursor w = (Raise (AssertionError "Line must be 0 or 1"), w)) /\
  (forall text line cursor w,
      0 <= line <= 1 -> ~ 0 <= cursor <= 39 ->
      write_string text line cursor w = (Raise (AssertionError "Cursor must be 0-39"), w)) /\
  (forall location bitmap w,
      ~ 0 <= location <= 7 ->
      create_char location bitmap w =
      (Raise (AssertionError "Only locations 0-7 can be used"), w)) /\
  (forall location bitmap w,
      0 <= location <= 7 -> ~ 1 <= len bitmap <= 48 ->
      create_char location bitmap w =
      (Raise (AssertionError "Bitmap should have 1-48 rows"), w)).
Proof.
  intros Hdebug.
  assert (Hin : forall lo hi x, lo <= x <= hi -> (lo <=? x) && (x <=? hi) = true)
    by (intros; apply andb_true_iff; split; apply Z.leb_le; lia).
  assert (Hout : forall lo hi x, ~ lo <= x <= hi -> (lo <=? x) && (x <=? hi) = false).
  { intros lo hi x Hx. apply andb_false_iff.
    destruct (Z.leb_spec lo x); [right; apply Z.leb_gt; lia|left; reflexivity]. }
  repeat split.
  - intros text line w Hl. unfold write_line.
    now rewrite (Hout _ _ _ Hl), (assert_false _ Hdebug).
  - intros text line cursor w Hl. unfold write_string.
    now rewrite (Hout _ _ _ Hl), (assert_false _ Hdebug).
  - intros text line cursor w Hl Hc. unfold write_string.
    now rewrite (Hin _ _ _ Hl), (Hout _ _ _ Hc), assert_true, (assert_false _ Hdebug).
  - intros location bitmap w Hl. unfold create_char.
    now rewrite (Hout _ _ _ Hl), (assert_false _ Hdebug).
  - intros location bitmap w Hl Hb. unfold create_char.
    now rewrite (Hin _ _ _ Hl), (Hout _ _ _ Hb), assert_true, (assert_false _ Hdebug).
Qed.

(** C6 (amended): for every location in [0, 7] and every bitmap of 1 to 48
    rows, each row a value in [0, 255], [create_char] hands the device the
    header [02 03 location*8 00 len(bitmap) 00 00 00] followed by one byte
    per row, so the payload is as long as the bitmap.  A row outside
    [0, 255] does not fit a byte: the call raises [OverflowError] and no
    report is produced. *)
Theorem create_char_report (location : Z) (bitmap : list Z) (w : World) (d : Device) :
  0 <= location <= 7 ->
  1 <= len bitmap <= 48 ->
  _device w = Some d ->
  (Forall (fun row => 0 <= row < 256) bitmap ->
   let report := [0x02; 0x03; location * 8; 0x00; len bitmap; 0x00; 0x00; 0x00] ++ bitmap in
   create_char location bitmap w = device_write report w /\
   written (snd (create_char location bitmap w)) = written w ++ [report] /\
   skipn 8 report = bitmap /\
   List.length (skipn 8 report) = List.length bitmap) /\
  (Exists (fun row => ~ 0 <= row < 256) bitmap ->
   create_char location bitmap w = (Raise OverflowError, w)).
Proof.
  intros Hloc Hlen Hd.
  assert (Hc1 : (0 <=? location) && (location <=? 7) = true)
    by (apply andb_true_iff; split; apply Z.leb_le; lia).
  assert (Hc2 : (1 <=? len bitmap) && (len bitmap <=? 48) = true)
    by (apply andb_true_iff; split; apply Z.leb_le; lia).
  split.
  - intros Hrows report.
    assert (Hrun : create_char location bitmap w = device_write report w).
    { unfold create_char. rewrite Hc1, Hc2, !assert_true. unfold bind, lift. cbn [ret].
      rewrite (char_rows_bytes bitmap [] Hrows). cbn [app].
      rewrite (to_bytes_byte (location * 8)), (to_bytes_byte (len bitmap)) by lia.
      reflexivity. }
    split; [exact Hrun|]. rewrite Hrun.
    destruct (device_write_bound report w d Hd) as (Hw & _).
    split; [exact Hw|]. split; reflexivity.
  - intros Hbad. unfold create_char. rewrite Hc1, Hc2, !assert_true.
    unfold bind, lift. cbn [ret].
    now rewrite (char_rows_overflow bitmap [] Hbad).
Qed.

(** What a logical operation does depends on its arguments alone: it either
    hands one fixed buffer to the device or raises one fixed exception. *)
Lemma run_cases (op : operation) :
  (exists buf, forall w, run op w = device_write buf w) \/
  (exists e, forall w, run op w = (Raise e, w)).
Proof.
  destruct op as [|text line|text line cursor|location bitmap]; cbn [run].
  - left. eexists. intros w. reflexivity.
  - unfold write_line.
    destruct (assert_cases ((0 <=? line) && (line <=? 1)) "Line must be 0 or 1.")
      as [-> | ->]; unfold bind, lift, ret, raise;
      [|right; eexists; intros w; reflexivity].
    destruct (to_bytes 0 1), (to_bytes line 1), (to_bytes 40 1);
      ((left; eexists; intros w; reflexivity) || (right; eexists; intros w; reflexivity)).
  - unfold write_string.
    destruct (assert_cases ((0 <=? line) && (line <=? 1)) "Line must be 0 or 1")
      as [-> | ->];
    destruct (assert_cases ((0 <=? cursor) && (cursor <=? 39)) "Cursor must be 0-39")
      as [-> | ->];
    unfold bind, lift, ret, raise;
    try (right; eexists; intros w; reflexivity).
    destruct (to_bytes cursor 1), (to_bytes line 1), (to_bytes (len (firstn 40 text)) 1);
      ((left; eexists; intros w; reflexivity) || (right; eexists; intros w; reflexivity)).
  - unfold create_char.
    destruct (assert_cases ((0 <=? location) && (location <=? 7))
                "Only locations 0-7 can be used")
      as [-> | ->];
    destruct (assert_cases ((1 <=? len bitmap) && (len bitmap <=? 48))
                "Bitmap should have 1-48 rows")
      as [-> | ->];
    unfold bind, lift, ret, raise;
    try (right; eexists; intros w; reflexivity).
    destruct (char_rows bitmap []) as [charData|e];
      [|right; eexists; intros w; reflexivity].
    destruct (to_bytes (location * 8) 1), (to_bytes (len charData) 1);
      ((left; eexists; intros w; reflexivity) || (right; eexists; intros w; reflexivity)).
Qed.

Lemma run_keeps_device (op : operation) (w : World) (d : Device) :
  _device w = Some d -> exists d', _device (snd (run op w)) = Some d'.
Proof.
  intros Hd. destruct (run_cases op) as [[buf H]|[e H]]; rewrite H.
  - destruct (device_write_bound buf w d Hd) as (_ & Hd' & _). eauto.
  - cbn. eauto.
Qed.

(** C7: [clear] encodes to the same 8 bytes on every call, [02 01] and six
    zero bytes; and every encoding operation is deterministic: run in any
    two opened sessions, or twice in a row in one, the same logical operation
    produces byte-identical buffers. *)
Theorem encoding_deterministic :
  (forall w, clear w = device_write [0x02; 0x01; 0; 0; 0; 0; 0; 0] w) /\
  (forall w d, _device w = Some d ->
     produced clear w = [[0x02; 0x01; 0; 0; 0; 0; 0; 0]]) /\
  (forall op w1 w2 d1 d2,
     _device w1 = Some d1 -> _device w2 = Some d2 ->
     produced (run op) w1 = produced (run op) w2) /\
  (forall op w d, _device w = Some d ->
     produced (run op) (snd (run op w)) = produced (run op) w).
Proof.
  assert (Hdet : forall op w1 w2 d1 d2,
     _device w1 = Some d1 -> _device w2 = Some d2 ->
     produced (run op) w1 = produced (run op) w2).
  { intros op w1 w2 d1 d2 H1 H2.
    destruct (run_cases op) as [[buf H]|[e H]].
    - unfold produced. rewrite !H. fold (produced (device_write buf) w1).
      fold (produced (device_write buf) w2).
      now rewrite (produced_device_write buf w1 d1), (produced_device_write buf w2 d2).
    - unfold produced. rewrite !H. cbn. now rewrite !skipn_all. }
  split; [reflexivity|]. split; [|split; [exact Hdet|]].
  - intros w d Hd. exact (produced_device_write _ w d Hd).
  - intros op w d Hd. destruct (run_keeps_device op w d Hd) as [d' Hd'].
    exact (Hdet op _ _ d' d Hd' Hd).
Qed.

End Session.

(** ** Reading keys *)

Section Keys.
Context {host : Host}.

Lemma bytes_eqb_eq (a b : bytes) : bytes_eqb a b = true <-> a = b.
Proof.
  unfold bytes_eqb. destruct (list_eq_dec Z.eq_dec a b); split; congruence.
Qed.

(** Runs [read] up to the report it got from the device. *)
Ltac read_got Hd Hr :=
  unfold read, bind, device_read; rewrite Hd, Hr.

Ltac spawn :=
  unfold call;
  match goal with
  | |- context [subprocess_call ?a ?s] =>
      let code := fresh "code" in let e := fresh "e" in let s' := fresh "s'" in
      destruct (subprocess_call a s) as [[code|e] s']
  end.

(** C3 (amended): [read] compares the whole report with three fixed byte
    strings.  The report [01 02 3A] is decoded as ['select'], [01 02 3B] as
    ['right'] and [01 02 3C] as ['left']: without the beep flag [read]
    returns that name; with it, [read] first starts the beep program and
    returns the name when that call returns, or raises what it raised.  A
    key name is returned for these exact reports only; a report that is
    none of them, for instance a longer one that merely ends in such bytes,
    yields no key name: [read] returns [None], with either flag. *)
Theorem read_decodes_exact_reports
  (timeout : option Z) (w : World) (d d' : Device) (raw : bytes) :
  _device w = Some d ->
  dev_read d 6 timeout = (Return raw, d') ->
  (forall beep, raw = key_select ->
     fst (read timeout beep w) =
     if beep then after_beep ["/usr/bin/beep"; "-f 1000"; "-l 20"] "select" (speaker w)
     else Return (Some "select")) /\
  (forall beep, raw = key_right ->
     fst (read timeout beep w) =
     if beep then after_beep ["/usr/bin/beep"; "-f 500"; "-l 10"] "right" (speaker w)
     else Return (Some "right")) /\
  (forall beep, raw = key_left ->
     fst (read timeout beep w) =
     if beep then after_beep ["/usr/bin/beep"; "-f 500"; "-l 10"] "left" (speaker w)
     else Return (Some "left")) /\
  (~ recognized raw -> forall beep, fst (read timeout beep w) = Return None) /\
  (forall beep name,
     fst (read timeout beep w) = Return (Some name) ->
     (name = "select" /\ raw = key_select) \/
     (name = "right" /\ raw = key_right) \/
     (name = "left" /\ raw = key_left)).
Proof.
  intros Hd Hr.
  assert (Hkey : forall (beep : bool) (args : list string) (name : string),
    fst (bind (if beep then call args else ret tt)
              (fun _ => ret (Some name)) (with_device d' w)) =
    if beep then after_beep args name (speaker w) else Return (Some name)).
  { intros [|] args name; [|reflexivity].
    unfold bind, call, after_beep. cbn [speaker with_device].
    now destruct (subprocess_call args (speaker w)) as [[code|e] s']. }
  repeat split.
  - intros beep ->. read_got Hd Hr.
    exact (Hkey beep _ _).
  - intros beep ->. read_got Hd Hr.
    exact (Hkey beep _ _).
  - intros beep ->. read_got Hd Hr.
    exact (Hkey beep _ _).
  - intros Hno beep. read_got Hd Hr.
    destruct (bytes_eqb raw [1; 2; 58]) eqn:E1;
      [apply bytes_eqb_eq in E1; exfalso; apply Hno; left; exact E1|].
    destruct (bytes_eqb raw [1; 2; 59]) eqn:E2;
      [apply bytes_eqb_eq in E2; exfalso; apply Hno; right; left; exact E2|].
    destruct (bytes_eqb raw [1; 2; 60]) eqn:E3;
      [apply bytes_eqb_eq in E3; exfalso; apply Hno; right; right; exact E3|].
    reflexivity.
  - intros beep name. read_got Hd Hr.
    destruct (bytes_eqb raw [1; 2; 58]) eqn:E1.
    { apply bytes_eqb_eq in E1.
      destruct beep; [spawn|]; cbn; intros H; left; (split; [congruence|exact E1]). }
    destruct (bytes_eqb raw [1; 2; 59]) eqn:E2.
    { apply bytes_eqb_eq in E2.
      destruct beep; [spawn|]; cbn; intros H; right; left; (split; [congruence|exact E2]). }
    destruct (bytes_eqb raw [1; 2; 60]) eqn:E3.
    { apply bytes_eqb_eq in E3.
      destruct beep; [spawn|]; cbn; intros H; right; right; (split; [congruence|exact E3]). }
    cbn. congruence.
Qed.

(** C4 (amended): for a report that is none of the three key reports,
    [read] prints the raw bytes on standard output and returns [None],
    whatever the beep flag: the caller sees that no key was recognized, but
    the bytes go to the output stream, not into the returned value.  No
    beep is started and nothing is written to the device. *)
Theorem read_unrecognized_prints
  (timeout : option Z) (beep : bool) (w : World) (d d' : Device) (raw : bytes) :
  _device w = Some d ->
  dev_read d 6 timeout = (Return raw, d') ->
  ~ recognized raw ->
  fst (read timeout beep w) = Return None /\
  stdout (snd (read timeout beep w)) = stdout w ++ [raw] /\
  speaker (snd (read timeout beep w)) = speaker w /\
  written (snd (read timeout beep w)) = written w.
Proof.
  intros Hd Hr Hno. read_got Hd Hr.
  destruct (bytes_eqb raw [1; 2; 58]) eqn:E1;
    [apply bytes_eqb_eq in E1; exfalso; apply Hno; left; exact E1|].
  destruct (bytes_eqb raw [1; 2; 59]) eqn:E2;
    [apply bytes_eqb_eq in E2; exfalso; apply Hno; right; left; exact E2|].
  destruct (bytes_eqb raw [1; 2; 60]) eqn:E3;
    [apply bytes_eqb_eq in E3; exfalso; apply Hno; right; right; exact E3|].
  cbn. auto.
Qed.


End Keys.

(** ** Closing the session *)

Section Lifecycle.
Context {host : Host}.

(** What the transport promises about a released handle. *)
Variable released : Device -> Prop.
Hypothesis close_releases : forall d, released (dev_close d).

Lemma close_bound (w : World) (d : Device) :
  _device w = Some d ->
  close w = (Return tt, with_device (dev_close d) w).
Proof. intros Hd. unfold close. now rewrite Hd. Qed.

(** A constructor that returns has bound the device. *)
Lemma init_binds_device (w : World) :
  fst (__init__ w) = Return tt -> exists d, _device (snd (__init__ w)) = Some d.
Proof.
  unfold __init__, bind, set_vid, set_pid, set_path, lift, raise.
  destruct (hid_enumerate 3254 2) as [|path rest]; cbn; [discriminate|].
  destruct (hid_Device path) as [d|e]; cbn; [eauto|discriminate].
Qed.

(** C8 (amended): [close] is idempotent on a session that was opened:
    called twice in a row it returns normally both times, and after each
    call the session holds the device as the transport released it.  It
    writes nothing to the device. *)
Theorem close_twice (w : World) (d : Device) :
  _device w = Some d ->
  fst (close w) = Return tt /\
  session_closed released (snd (close w)) /\
  fst (close (snd (close w))) = Return tt /\
  session_closed released (snd (close (snd (close w)))) /\
  written (snd (close (snd (close w)))) = written w.
Proof.
  intros Hd. rewrite (close_bound w d Hd). cbn [fst snd].
  rewrite (close_bound (with_device (dev_close d) w) (dev_close d) eq_refl).
  cbn [fst snd]. repeat split.
  - exists (dev_close d). split; [reflexivity|apply close_releases].
  - exists (dev_close (dev_close d)). split; [reflexivity|apply close_releases].
Qed.

(** The device object of the [hid] package refuses to read from or write
    to a handle it has released (it raises [HIDException], 'device
    closed'), and the handle stays released. *)
Hypothesis read_refused : forall d size timeout,
  released d -> exists e d', dev_read d size timeout = (Raise e, d') /\ released d'.
Hypothesis write_refused : forall d data,
  released d -> exists e d', dev_write d data = (Raise e, d') /\ released d'.

Lemma device_read_closed (size : Z) (timeout : option Z) (w : World) :
  session_closed released w ->
  exists e w', device_read size timeout w = (Raise e, w') /\ session_closed released w'.
Proof.
  intros (d & Hd & Hrel). unfold device_read. rewrite Hd.
  destruct (read_refused d size timeout Hrel) as (e & d' & -> & Hrel').
  exists e, (with_device d' w). split; [reflexivity|]. exists d'. auto.
Qed.

Lemma device_write_closed (data : bytes) (w : World) :
  session_closed released w ->
  exists e w', device_write data w = (Raise e, w') /\ session_closed released w'.
Proof.
  intros (d & Hd & Hrel). unfold device_write. rewrite Hd.
  destruct (write_refused d data Hrel) as (e & d' & -> & Hrel').
  eexists e, _. split; [reflexivity|]. exists d'. auto.
Qed.

Lemma perform_closed (r : request) (w : World) :
  session_closed released w ->
  exists e w', perform r w = (Raise e, w') /\ session_closed released w'.
Proof.
  intros Hc. destruct r as [timeout beep|timeout|data|op]; cbn [perform].
  - destruct (device_read_closed 6 timeout w Hc) as (e & w' & E & Hc').
    exists e, w'. unfold void, read, bind. now rewrite E.
  - destruct (device_read_closed 63 timeout w Hc) as (e & w' & E & Hc').
    exists e, w'. unfold void, readRaw, bind. now rewrite E.
  - apply device_write_closed, Hc.
  - destruct (run_cases op) as [[buf H]|[e H]]; rewrite H.
    + apply device_write_closed, Hc.
    + exists e, w. auto.
Qed.

(** C9: after [close] the session is closed for good, and every further
    operation fails with an exception.  The session forwards each call to
    the device object it holds, which refuses a closed handle; so whatever
    the caller then requests ([read], [readRaw], [writeRaw], [clear],
    [write_line], [write_string], [create_char]), in any number and order,
    each request raises and the session stays closed. *)
Theorem closed_session_refuses (w : World) (d : Device) (rs : list request) :
  _device w = Some d ->
  session_closed released (snd (close w)) /\
  Forall (fun o => exists e, o = Raise e) (fst (attempt_all rs (snd (close w)))) /\
  List.length (fst (attempt_all rs (snd (close w)))) = List.length rs /\
  session_closed released (snd (attempt_all rs (snd (close w)))).
Proof.
  intros Hd.
  assert (Hc : session_closed released (snd (close w))).
  { rewrite (close_bound w d Hd). exists (dev_close d). split; [reflexivity|apply close_releases]. }
  split; [exact Hc|]. generalize dependent (snd (close w)). clear Hd.
  induction rs as [|r rest IH]; intros wc Hc; cbn [attempt_all].
  - cbn. auto.
  - destruct (perform_closed r wc Hc) as (e & w' & -> & Hc').
    specialize (IH w' Hc'). destruct (attempt_all rest w') as [os w''].
    cbn [fst snd] in *. destruct IH as (Hall & Hlen & Hc'').
    repeat split; [constructor; eauto|cbn; now rewrite Hlen|exact Hc''].
Qed.

End Lifecycle.

(** ** On the bench

    The driver run on concrete inputs, against the bench hosts. *)

Lemma bench_close_releases (d : Bench) : bench_released (bench_close d).
Proof. reflexivity. Qed.

Lemma bench_read_refused (d : Bench) (size : Z) (timeout : option Z) :
  bench_released d ->
  exists e d', bench_read d size timeout = (Raise e, d') /\ bench_released d'.
Proof.
  unfold bench_released, bench_read. intros H. rewrite H. cbn. eauto.
Qed.

Lemma bench_write_refused (d : Bench) (data : bytes) :
  bench_released d ->
  exists e d', bench_write d data = (Raise e, d') /\ bench_released d'.
Proof.
  unfold bench_released, bench_write. intros H. rewrite H. cbn. eauto.
Qed.

Lemma zero_unrecognized : ~ recognized [0].
Proof. intros [H|[H|H]]; discriminate H. Qed.

Lemma one_unrecognized : ~ recognized [1].
Proof. intros [H|[H|H]]; discriminate H. Qed.

(** [write_line("Hi€", line=1)]: the euro sign is not Latin-1. *)
Lemma write_line_report_witness :
  written (snd (write_line [72; 105; 8364]%N 1 (opened []))) =
  [[0x02; 0x00; 0; 1; 40; 0; 0; 0; 72; 105; 63] ++ repeat 32 37].
Proof.
  destruct (write_line_report (host := strict_host) [72; 105; 8364]%N 1
              (opened []) (mkBench true [] []) (or_intror eq_refl) eq_refl)
    as (_ & H & _).
  exact H.
Defined.

(** [write_line("x"*45, line=0)] keeps 40 characters and needs no padding. *)
Example write_line_truncates :
  written (snd (write_line (repeat 120%N 45) 0 (opened []))) =
  [[0x02; 0x00; 0; 0; 40; 0; 0; 0] ++ repeat 120 40].
Proof. reflexivity. Qed.

(** [write_string("Hi", line=1, cursor=5)] *)
Lemma write_string_report_witness :
  written (snd (write_string [72; 105]%N 1 5 (opened []))) =
  [[0x02; 0x00; 5; 1; 2; 0; 0; 0; 72; 105]].
Proof.
  destruct (write_string_report (host := strict_host) [72; 105]%N 1 5
              (opened []) (mkBench true [] [])
              (or_intror eq_refl) ltac:(lia) eq_refl)
    as (_ & H & _).
  exact H.
Defined.

(** C2 as stated fails on a text of 41 characters: the payload is cut to 40
    bytes and the length field says 40, not [len(text)] = 41. *)
Lemma write_string_length_field_counterexample :
  exists report,
    written (snd (write_string (repeat 120%N 41) 0 0 (opened []))) = [report] /\
    nth 4 report 0 = 40 /\
    len (repeat 120%N 41) = 41 /\
    nth 4 report 0 <> len (repeat 120%N 41).
Proof.
  eexists. split; [reflexivity|]. repeat split. discriminate.
Qed.

Lemma read_decodes_exact_reports_witness :
  fst (read None false (opened [key_select])) = Return (Some "select").
Proof.
  destruct (read_decodes_exact_reports (host := strict_host) None
              (opened [key_select]) (mkBench true [key_select] [])
              (mkBench true [] []) key_select eq_refl eq_refl)
    as (H & _).
  exact (H false eq_refl).
Defined.

(** C3 as stated fails on a six-byte report that ends in [02 3A]: it is not
    decoded as ['select']; [read] returns [None]. *)
Lemma read_suffix_counterexample :
  ends_with [0x01; 0x00; 0x00; 0x01; 0x02; 0x3A] [0x02; 0x3A] /\
  fst (read None false (opened [[0x01; 0x00; 0x00; 0x01; 0x02; 0x3A]])) = Return None /\
  fst (read None false (opened [[0x01; 0x00; 0x00; 0x01; 0x02; 0x3A]]))
    <> Return (Some "select").
Proof.
  split; [exists [0x01; 0x00; 0x00; 0x01]; reflexivity|].
  split; [reflexivity|discriminate].
Qed.

Lemma read_unrecognized_prints_witness :
  fst (read None true (opened [[0]])) = Return None /\
  stdout (snd (read None true (opened [[0]]))) = [[0]].
Proof.
  destruct (read_unrecognized_prints (host := strict_host) None true
              (opened [[0]]) (mkBench true [[0]] []) (mkBench true [] []) [0]
              eq_refl eq_refl zero_unrecognized)
    as (H1 & H2 & _).
  split; [exact H1|exact H2].
Defined.

(** C4 as stated fails: two different unrecognized reports give the same
    returned value, so no caller can get the raw bytes back from what [read]
    returns. *)
Lemma read_result_cannot_carry_raw_bytes :
  ~ exists carried : outcome (option string) -> bytes,
      forall raw, ~ recognized raw ->
        carried (fst (read None false (opened [raw]))) = raw.
Proof.
  intros (carried & H).
  pose proof (H [0] zero_unrecognized) as H0.
  pose proof (H [1] one_unrecognized) as H1.
  change (carried (Return None) = [0]) in H0.
  change (carried (Return None) = [1]) in H1.
  rewrite H0 in H1. discriminate H1.
Qed.

Lemma out_of_range_rejected_witness :
  write_line [72; 105]%N 2 (opened []) =
  (Raise (AssertionError "Line must be 0 or 1."), opened []) /\
  write_string [72; 105]%N 0 40 (opened []) =
  (Raise (AssertionError "Cursor must be 0-39"), opened []) /\
  create_char 8 [1] (opened []) =
  (Raise (AssertionError "Only locations 0-7 can be used"), opened []) /\
  create_char 0 [] (opened []) =
  (Raise (AssertionError "Bitmap should have 1-48 rows"), opened []).
Proof.
  destruct (out_of_range_rejected (host := strict_host) eq_refl)
    as (H1 & _ & H3 & H4 & H5).
  split; [apply H1; lia|].
  split; [apply H3; lia|].
  split; [apply H4; lia|].
  apply H5; [lia|cbn; lia].
Defined.

(** C5 as stated fails under an interpreter started with [-O], where the
    assert statements are not executed: [write_line("Hi", line=2)] returns
    normally and the report, with line byte 2, reaches the device; so does
    a cursor of 40, and a bitmap of 49 rows at location 8. *)
Lemma out_of_range_unchecked_counterexample :
  ~ 0 <= 2 <= 1 /\
  fst (write_line [72; 105]%N 2 (opened_optimized [])) = Return tt /\
  written (snd (write_line [72; 105]%N 2 (opened_optimized []))) =
    [[0x02; 0x00; 0; 2; 40; 0; 0; 0; 72; 105] ++ repeat 32 38] /\
  written (snd (write_string [72; 105]%N 0 40 (opened_optimized []))) =
    [[0x02; 0x00; 40; 0; 2; 0; 0; 0; 72; 105]] /\
  written (snd (create_char 8 (repeat 0 49) (opened_optimized []))) =
    [[0x02; 0x03; 64; 0; 49; 0; 0; 0] ++ repeat 0 49].
Proof.
  split; [lia|]. repeat split.
Qed.

Lemma create_char_report_witness :
  written (snd (create_char 1 [0x1F; 0x11] (opened []))) =
  [[0x02; 0x03; 8; 0x00; 2; 0; 0; 0; 0x1F; 0x11]].
Proof.
  destruct (create_char_report (host := strict_host) 1 [0x1F; 0x11]
              (opened []) (mkBench true [] [])
              ltac:(lia) ltac:(cbn; lia) eq_refl)
    as (H & _).
  destruct H as (_ & H & _).
  - repeat constructor; lia.
  - exact H.
Defined.

(** C6 as stated fails on the one-row bitmap [(256,)] at location 0: the row
    does not fit a byte, [create_char] raises [OverflowError] and no report
    is produced. *)
Lemma create_char_row_counterexample :
  0 <= 0 <= 7 /\
  1 <= len [256] <= 48 /\
  create_char 0 [256] (opened []) = (Raise OverflowError, opened []).
Proof.
  split; [lia|]. split; [cbn; lia|reflexivity].
Qed.

Lemma encoding_deterministic_witness :
  produced clear (opened []) = [[0x02; 0x01; 0; 0; 0; 0; 0; 0]] /\
  produced (run (WriteString [72; 105]%N 1 5))
           (snd (run (WriteString [72; 105]%N 1 5) (opened []))) =
  produced (run (WriteString [72; 105]%N 1 5)) (opened []).
Proof.
  destruct (encoding_deterministic (host := strict_host)) as (_ & H2 & _ & H4).
  split.
  - exact (H2 (opened []) (mkBench true [] []) eq_refl).
  - exact (H4 (WriteString [72; 105]%N 1 5) (opened []) (mkBench true [] []) eq_refl).
Defined.

Lemma close_twice_witness :
  fst (close (snd (close (opened [])))) = Return tt /\
  session_closed (host := strict_host) bench_released
    (snd (close (snd (close (opened []))))).
Proof.
  destruct (close_twice (host := strict_host) bench_released bench_close_releases
              (opened []) (mkBench true [] []) eq_refl)
    as (_ & _ & H3 & H4 & _).
  split; [exact H3|exact H4].
Defined.

(** C8 as stated fails on a session that never opened: with no device
    plugged in the constructor raises before [_device] is bound, and
    [close] on that object raises [AttributeError]. *)
Lemma close_never_opened_counterexample :
  fst (__init__ (@blank empty_host [])) =
    Raise (RuntimeError "Cannot find USB LCD device") /\
  _device (snd (__init__ (@blank empty_host []))) = None /\
  fst (close (snd (__init__ (@blank empty_host [])))) =
    Raise (AttributeError "_device").
Proof. repeat split. Qed.

Lemma closed_session_refuses_witness :
  Forall (fun o : outcome unit => exists e, o = Raise e)
    (fst (attempt_all
            [Read None true; ReadRaw None; WriteRaw [1]; Encode Clear;
             Encode (WriteLine [72]%N 0); Encode (WriteString [72]%N 0 0);
             Encode (CreateChar 0 [1])]
            (snd (close (opened [key_select]))))).
Proof.
  exact (proj1 (proj2
    (closed_session_refuses (host := strict_host) bench_released
       bench_close_releases bench_read_refused bench_write_refused
       (opened [key_select]) (mkBench true [key_select] []) _ eq_refl))).
Defined.


(** With the beep flag set, a recognized key starts the beep program once. *)
Example read_beeps_once :
  read None true (opened [key_right]) =
  (Return (Some "right"),
   @mkWorld strict_host (Some 0x0CB6) (Some 0x0002) (Some [0x31])
     (Some (mkBench true [] [])) [] [] [["/usr/bin/beep"; "-f 500"; "-l 10"]]).
Proof. reflexivity. Qed.


(** Where the beep program cannot be started, [read] with the flag set
    raises what [subprocess.call] raised instead of returning the key. *)
Example read_beep_not_installed :
  fst (read None true
         (@mkWorld (bench_host false [[0x31]] false) None None None
            (Some (mkBench true [key_select] [])) [] [] [])) =
  Raise (OSError "No such file or directory").
Proof. reflexivity. Qed.

(** [readRaw] returns the report as lowercase hexadecimal text. *)
Example readRaw_hex :
  fst (readRaw None (opened [[0x01; 0x02; 0x3A]])) = Return "01023a".
Proof. reflexivity. Qed.

(** The constructor opens the first device that enumeration returns. *)
Example init_opens :
  __init__ (@blank strict_host []) = (Return tt, opened []).
Proof. reflexivity. Qed.

(** * Further properties of the driver *)

(** ** The encoders *)

Section Encoders.
Context {host : Host}.

Lemma range_test (lo hi x : Z) :
  (lo <=? x) && (x <=? hi) = true <-> lo <= x <= hi.
Proof. rewrite andb_true_iff, !Z.leb_le. tauto. Qed.

Lemma write_line_valid (text : str) (line : Z) (w : World) :
  0 <= line <= 1 ->
  write_line text line w =
  device_write ([0x02; 0x00; 0; line; 40; 0; 0; 0] ++
                encode (firstn 40 text) ++
                repeat 32 (40 - List.length (firstn 40 text))) w.
Proof.
  intros Hl. unfold write_line.
  rewrite (proj2 (range_test 0 1 line) Hl), assert_true.
  unfold bind, lift. cbn [ret].
  rewrite (to_bytes_byte 0), (to_bytes_byte line), (to_bytes_byte 40) by lia.
  reflexivity.
Qed.

Lemma write_string_valid (text : str) (line cursor : Z) (w : World) :
  0 <= line <= 1 -> 0 <= cursor <= 39 ->
  write_string text line cursor w =
  device_write ([0x02; 0x00; cursor; line; len (firstn 40 text); 0; 0; 0] ++
                encode (firstn 40 text)) w.
Proof.
  intros Hl Hc. unfold write_string.
  rewrite (proj2 (range_test 0 1 line) Hl), (proj2 (range_test 0 39 cursor) Hc),
    !assert_true.
  unfold bind, lift. cbn [ret].
  assert (Hm : 0 <= len (firstn 40 text) <= 40)
    by (unfold len; rewrite length_firstn; lia).
  rewrite (to_bytes_byte cursor), (to_bytes_byte line),
    (to_bytes_byte (len (firstn 40 text))) by lia.
  reflexivity.
Qed.

Lemma char_rows_inv (bitmap : list Z) (acc : bytes) :
  match char_rows bitmap acc with
  | Return charData =>
      charData = acc ++ bitmap /\ Forall (fun row => 0 <= row < 256) bitmap
  | Raise e => e = OverflowError
  end.
Proof.
  revert acc. induction bitmap as [|row rest IH]; intros acc; cbn [char_rows].
  - split; [now rewrite app_nil_r|constructor].
  - destruct (Z.ltb_spec row 0) as [Hneg|Hpos].
    { rewrite to_bytes_overflow by lia. reflexivity. }
    destruct (Z.ltb_spec row 256) as [Hfit|Hbig].
    + rewrite to_bytes_byte by lia. specialize (IH (acc ++ [row])).
      destruct (char_rows rest (acc ++ [row])) as [charData|e]; [|exact IH].
      destruct IH as (-> & Hrest). split; [now rewrite <- app_assoc|].
      constructor; [lia|exact Hrest].
    + rewrite to_bytes_overflow by lia. reflexivity.
Qed.

Lemma create_char_valid (location : Z) (bitmap : list Z) (w : World) :
  0 <= location <= 7 -> 1 <= len bitmap <= 48 ->
  Forall (fun row => 0 <= row < 256) bitmap ->
  create_char location bitmap w =
  device_write ([0x02; 0x03; location * 8; 0x00; len bitmap; 0; 0; 0] ++ bitmap) w.
Proof.
  intros Hl Hb Hrows. unfold create_char.
  rewrite (proj2 (range_test 0 7 location) Hl), (proj2 (range_test 1 48 _) Hb),
    !assert_true.
  unfold bind, lift. cbn [ret]. rewrite (char_rows_bytes bitmap [] Hrows). cbn [app].
  rewrite (to_bytes_byte (location * 8)), (to_bytes_byte (len bitmap)) by lia.
  reflexivity.
Qed.

Lemma framed_header (size : nat) (a b c n : Z) (payload : bytes) :
  0 <= a < 256 -> 0 <= b < 256 -> 0 <= c < 256 ->
  n = len payload -> (List.length payload + 8 <= size)%nat ->
  0 <= n < 256 ->
  Forall (fun x => 0 <= x < 256) payload ->
  framed_upto size ([0x02; a; b; c; n; 0; 0; 0] ++ payload).
Proof.
  intros Ha Hb Hc Hn Hlen Hbyte Hp. unfold framed_upto, len.
  rewrite length_app. cbn [List.length app nth].
  repeat split; try lia.
  - subst n. unfold len. lia.
  - repeat (constructor; [lia|]). exact Hp.
Qed.

Lemma framed_upto_mono (m n : nat) (r : bytes) :
  (m <= n)%nat -> framed_upto m r -> framed_upto n r.
Proof. unfold framed_upto. intros Hmn (H & Hrest). split; [lia|exact Hrest]. Qed.

Lemma assert_optimized (cond : bool) (msg : string) :
  python_O = true -> assert cond msg = ret tt.
Proof. unfold assert. now intros ->. Qed.

Lemma assert_default (cond : bool) (msg : string) :
  python_O = false ->
  assert cond msg = if cond then ret tt else raise (AssertionError msg).
Proof. unfold assert. now intros ->. Qed.

Lemma to_bytes_inv (n : Z) :
  match to_bytes n 1 with
  | Return b => b = [n] /\ 0 <= n < 256
  | Raise e => e = OverflowError
  end.
Proof.
  destruct (Z.ltb_spec n 0); [now rewrite to_bytes_overflow by lia|].
  destruct (Z.ltb_spec n 256);
    [rewrite to_bytes_byte by lia; split; [reflexivity|lia]
    |now rewrite to_bytes_overflow by lia].
Qed.

Lemma spaces_range (k : nat) : Forall (fun b => 0 <= b < 256) (repeat 32 k).
Proof. apply Forall_forall. intros b Hb. apply repeat_spec in Hb. lia. Qed.

(** With the argument checks compiled away, the conversions to one byte
    are what is left to stop a call. *)
Lemma run_shape_optimized (op : operation) :
  python_O = true ->
  (exists buf, framed_upto 263 buf /\ forall w, run op w = device_write buf w) \/
  (exists e, argument_error e /\ forall w, run op w = (Raise e, w)).
Proof.
  intros HO.
  destruct op as [|text line|text line cursor|location bitmap]; cbn [run].
  - left. exists [0x02; 0x01; 0; 0; 0; 0; 0; 0]. split; [|intros w; reflexivity].
    apply (framed_header 263 1 0 0 0 []); cbn; try lia. constructor.
  - unfold write_line. rewrite (assert_optimized _ _ HO).
    unfold bind, lift. cbn [ret].
    rewrite (to_bytes_byte 0), (to_bytes_byte 40) by lia.
    pose proof (to_bytes_inv line) as Hline.
    destruct (to_bytes line 1) as [b|e].
    + destruct Hline as (-> & Hline). left.
      exists ([0x02; 0x00; 0; line; 40; 0; 0; 0] ++
              encode (firstn 40 text) ++
              repeat 32 (40 - List.length (firstn 40 text))).
      split; [|intros w; reflexivity].
      apply framed_header; try lia.
      * unfold len. rewrite length_app, encode_length, repeat_length, length_firstn. lia.
      * rewrite length_app, encode_length, repeat_length, length_firstn. lia.
      * apply Forall_app. split; [apply encode_range|apply spaces_range].
    + subst e. right. exists OverflowError. split; [right; reflexivity|].
      intros w. reflexivity.
  - unfold write_string. rewrite !(assert_optimized _ _ HO).
    unfold bind, lift. cbn [ret].
    assert (Hm : 0 <= len (firstn 40 text) <= 40)
      by (unfold len; rewrite length_firstn; lia).
    rewrite (to_bytes_byte (len (firstn 40 text))) by lia.
    pose proof (to_bytes_inv cursor) as Hcur. pose proof (to_bytes_inv line) as Hline.
    destruct (to_bytes cursor 1) as [b1|e1].
    2:{ subst e1. right. exists OverflowError. split; [right; reflexivity|].
        intros w. reflexivity. }
    destruct (to_bytes line 1) as [b2|e2].
    2:{ subst e2. right. exists OverflowError. split; [right; reflexivity|].
        intros w. reflexivity. }
    destruct Hcur as (-> & Hcur). destruct Hline as (-> & Hline). left.
    exists ([0x02; 0x00; cursor; line; len (firstn 40 text); 0; 0; 0] ++
            encode (firstn 40 text)).
    split; [|intros w; reflexivity].
    apply framed_header; try lia.
    + unfold len. now rewrite encode_length.
    + rewrite encode_length. unfold len in Hm. lia.
    + apply encode_range.
  - unfold create_char. rewrite !(assert_optimized _ _ HO).
    unfold bind, lift. cbn [ret].
    pose proof (char_rows_inv bitmap []) as Hrows.
    destruct (char_rows bitmap []) as [charData|e].
    2:{ subst e. right. exists OverflowError. split; [right; reflexivity|].
        intros w. reflexivity. }
    destruct Hrows as (-> & Hrows). cbn [app].
    pose proof (to_bytes_inv (location * 8)) as Hloc.
    pose proof (to_bytes_inv (len bitmap)) as Hlen.
    destruct (to_bytes (location * 8) 1) as [b1|e1].
    2:{ subst e1. right. exists OverflowError. split; [right; reflexivity|].
        intros w. reflexivity. }
    destruct (to_bytes (len bitmap) 1) as [b2|e2].
    2:{ subst e2. right. exists OverflowError. split; [right; reflexivity|].
        intros w. reflexivity. }
    destruct Hloc as (-> & Hloc). destruct Hlen as (-> & Hlen). left.
    exists ([0x02; 0x03; location * 8; 0x00; len bitmap; 0; 0; 0] ++ bitmap).
    split; [|intros w; reflexivity].
    apply framed_header; try lia; [unfold len in Hlen; lia|exact Hrows].
Qed.

(** With the argument checks in force, either a check or a row that does
    not fit a byte stops the call, or the report has at most 48 payload
    bytes. *)
Lemma run_shape_default (op : operation) :
  python_O = false ->
  (exists buf, framed buf /\ forall w, run op w = device_write buf w) \/
  (exists e, argument_error e /\ forall w, run op w = (Raise e, w)).
Proof.
  intros HO. unfold framed.
  destruct op as [|text line|text line cursor|location bitmap]; cbn [run].
  - left. eexists. split; [|intros w; reflexivity].
    apply (framed_header 56 1 0 0 0 []); cbn; try lia. constructor.
  - destruct ((0 <=? line) && (line <=? 1)) eqn:El.
    + apply range_test in El. left. eexists. split;
        [|intros w; apply write_line_valid, El].
      apply framed_header; try lia.
      * unfold len. rewrite length_app, encode_length, repeat_length, length_firstn. lia.
      * rewrite length_app, encode_length, repeat_length, length_firstn. lia.
      * apply Forall_app. split; [apply encode_range|apply spaces_range].
    + right. eexists. split; [left; eauto|].
      intros w. unfold write_line. now rewrite (assert_default _ _ HO), El.
  - destruct ((0 <=? line) && (line <=? 1)) eqn:El.
    2:{ right. eexists. split; [left; eauto|].
        intros w. unfold write_string. now rewrite !(assert_default _ _ HO), El. }
    destruct ((0 <=? cursor) && (cursor <=? 39)) eqn:Ec.
    2:{ right. eexists. split; [left; eauto|].
        intros w. unfold write_string. now rewrite !(assert_default _ _ HO), El, Ec. }
    apply range_test in El, Ec. left. eexists. split;
      [|intros w; apply write_string_valid; [exact El|exact Ec]].
    assert (Hm : 0 <= len (firstn 40 text) <= 40)
      by (unfold len; rewrite length_firstn; lia).
    apply framed_header; try lia.
    + unfold len. now rewrite encode_length.
    + rewrite encode_length, length_firstn. lia.
    + apply encode_range.
  - destruct ((0 <=? location) && (location <=? 7)) eqn:El.
    2:{ right. eexists. split; [left; eauto|].
        intros w. unfold create_char. now rewrite !(assert_default _ _ HO), El. }
    destruct ((1 <=? len bitmap) && (len bitmap <=? 48)) eqn:Eb.
    2:{ right. eexists. split; [left; eauto|].
        intros w. unfold create_char. now rewrite !(assert_default _ _ HO), El, Eb. }
    pose proof (char_rows_inv bitmap []) as Hrows.
    destruct (char_rows bitmap []) as [charData|e] eqn:Er.
    + destruct Hrows as (_ & Hrows). apply range_test in El, Eb.
      left. eexists. split;
        [|intros w; apply create_char_valid; [exact El|exact Eb|exact Hrows]].
      apply framed_header; try lia; [unfold len in Eb; lia|exact Hrows].
    + subst e. right. eexists. split; [right; reflexivity|].
      intros w. unfold create_char, bind, lift.
      now rewrite !(assert_default _ _ HO), El, Eb, Er.
Qed.

(** What an encoder does is decided by its arguments and the interpreter's
    mode: either it raises for its arguments, or it hands the device one
    framed report. *)
Lemma run_shape (op : operation) :
  (exists buf, framed_upto 263 buf /\ (python_O = false -> framed buf) /\
               forall w, run op w = device_write buf w) \/
  (exists e, argument_error e /\ forall w, run op w = (Raise e, w)).
Proof.
  destruct python_O eqn:HO.
  - destruct (run_shape_optimized op HO) as [(buf & Hf & H)|Hraise]; [left|right; exact Hraise].
    exists buf. split; [exact Hf|]. split; [discriminate|exact H].
  - destruct (run_shape_default op HO) as [(buf & Hf & H)|Hraise]; [left|right; exact Hraise].
    exists buf. split; [apply (framed_upto_mono 56 263); [lia|exact Hf]|].
    split; [intros _; exact Hf|exact H].
Qed.

(** X1: in either mode of the interpreter, every report an encoder hands
    to the device is framed: it starts with the LCD report number, its
    length field at offset 4 counts exactly the bytes after the 8-byte
    header, the three bytes after it are zero and every element is a byte;
    it is at most 263 bytes long, and at most 56 when assertions are
    enabled.  One call produces at most one report. *)
Theorem encoders_frame_reports (op : operation) (w : World) (d : Device) :
  _device w = Some d ->
  Forall (framed_upto 263) (produced (run op) w) /\
  (python_O = false -> Forall framed (produced (run op) w)) /\
  (List.length (produced (run op) w) <= 1)%nat.
Proof.
  intros Hd. destruct (run_shape op) as [(buf & Hf & Hf' & H)|(e & _ & H)].
  - unfold produced. rewrite H. fold (produced (device_write buf) w).
    rewrite (produced_device_write buf w d Hd).
    split; [constructor; [exact Hf|constructor]|].
    split; [intros HO; constructor; [exact (Hf' HO)|constructor]|cbn; lia].
  - unfold produced. rewrite H. cbn [snd]. rewrite skipn_all.
    split; [constructor|]. split; [constructor|cbn; lia].
Qed.

(** X2: in either mode of the interpreter, an encoder has no partial
    effect.  When it raises for its own arguments (a failed assertion, a
    value that does not fit a byte) the world is exactly as before the
    call; otherwise the call reaches the device with one framed report, of
    at most 56 bytes when assertions are enabled.  In both cases nothing is
    printed, no process is started and the attributes [_vid], [_pid],
    [_path] keep their values. *)
Theorem encoders_no_partial_effect (op : operation) (w : World) :
  ((exists e, argument_error e /\ run op w = (Raise e, w)) \/
   (exists buf, framed_upto 263 buf /\ (python_O = false -> framed buf) /\
                run op w = device_write buf w)) /\
  stdout (snd (run op w)) = stdout w /\
  speaker (snd (run op w)) = speaker w /\
  _vid (snd (run op w)) = _vid w /\
  _pid (snd (run op w)) = _pid w /\
  _path (snd (run op w)) = _path w.
Proof.
  destruct (run_shape op) as [(buf & Hf & Hf' & H)|(e & He & H)]; rewrite H.
  - split; [right; eauto|]. unfold device_write.
    destruct (_device w) as [d|]; [|cbn; auto].
    destruct (dev_write d buf) as [[n|e] d']; cbn; auto.
  - split; [left; eauto|]. cbn. auto.
Qed.

(** X3: [write_line] is [write_string] at cursor 0 of the text filled up
    with spaces to 40 columns: for a line in {0, 1} the two calls behave
    alike in every world. *)
Theorem write_line_is_padded_write_string (text : str) (line : Z) (w : World) :
  0 <= line <= 1 ->
  write_line text line w =
  write_string (firstn 40 (text ++ repeat 32%N 40)) line 0 w.
Proof.
  intros Hl. rewrite (write_line_valid text line w Hl).
  rewrite (write_string_valid _ line 0 w Hl) by lia.
  rewrite firstn_firstn. change (Nat.min 40 40) with 40%nat.
  assert (Hlen : List.length (firstn 40 (text ++ repeat 32%N 40)) = 40%nat)
    by (rewrite length_firstn, length_app, repeat_length; lia).
  unfold len. rewrite Hlen.
  rewrite line_payload. unfold encode.
  rewrite <- firstn_map, map_app, map_repeat. reflexivity.
Qed.

Lemma encode_latin1_injective (s1 s2 : str) :
  Forall (fun c => (c < 256)%N) s1 -> Forall (fun c => (c < 256)%N) s2 ->
  encode s1 = encode s2 -> s1 = s2.
Proof.
  intros H1. revert s2. induction H1 as [|c1 s1 Hc1 _ IH]; intros s2 H2 E.
  - destruct s2; [reflexivity|discriminate].
  - destruct H2 as [|c2 s2 Hc2 H2]; [discriminate|].
    cbn in E. injection E as Ec Es. f_equal; [|now apply IH].
    unfold latin1_replace in Ec.
    rewrite (proj2 (N.ltb_lt c1 256) Hc1), (proj2 (N.ltb_lt c2 256) Hc2) in Ec.
    now apply N2Z.inj.
Qed.

(** X4: [write_string] loses nothing of a Latin-1 text that fits the line:
    two calls with valid arguments and texts of at most 40 characters, all
    below code point 256, produce the same report only when text, line and
    cursor are the same. *)
Theorem write_string_injective
  (text1 text2 : str) (line1 line2 cursor1 cursor2 : Z) (w : World) (d : Device) :
  _device w = Some d ->
  0 <= line1 <= 1 -> 0 <= line2 <= 1 ->
  0 <= cursor1 <= 39 -> 0 <= cursor2 <= 39 ->
  (List.length text1 <= 40)%nat -> (List.length text2 <= 40)%nat ->
  Forall (fun c => (c < 256)%N) text1 -> Forall (fun c => (c < 256)%N) text2 ->
  produced (write_string text1 line1 cursor1) w =
  produced (write_string text2 line2 cursor2) w ->
  text1 = text2 /\ line1 = line2 /\ cursor1 = cursor2.
Proof.
  intros Hd Hl1 Hl2 Hc1 Hc2 Hn1 Hn2 Ht1 Ht2 E.
  unfold produced in E.
  rewrite (write_string_valid text1 line1 cursor1 w Hl1 Hc1) in E.
  rewrite (write_string_valid text2 line2 cursor2 w Hl2 Hc2) in E.
  fold (produced (device_write
    ([2; 0; cursor1; line1; len (firstn 40 text1); 0; 0; 0] ++ encode (firstn 40 text1))) w) in E.
  fold (produced (device_write
    ([2; 0; cursor2; line2; len (firstn 40 text2); 0; 0; 0] ++ encode (firstn 40 text2))) w) in E.
  rewrite !(produced_device_write _ w d Hd) in E.
  rewrite !firstn_all2 in E by lia.
  cbn [app] in E. injection E as Ec El _ Et.
  split; [|split; assumption].
  now apply encode_latin1_injective.
Qed.

(** X5: [create_char] loses nothing either: two calls with valid locations
    and bitmaps of byte rows produce the same report only when location and
    bitmap are the same. *)
Theorem create_char_injective
  (location1 location2 : Z) (bitmap1 bitmap2 : list Z) (w : World) (d : Device) :
  _device w = Some d ->
  0 <= location1 <= 7 -> 0 <= location2 <= 7 ->
  1 <= len bitmap1 <= 48 -> 1 <= len bitmap2 <= 48 ->
  Forall (fun row => 0 <= row < 256) bitmap1 ->
  Forall (fun row => 0 <= row < 256) bitmap2 ->
  produced (create_char location1 bitmap1) w =
  produced (create_char location2 bitmap2) w ->
  location1 = location2 /\ bitmap1 = bitmap2.
Proof.
  intros Hd Hl1 Hl2 Hb1 Hb2 Hr1 Hr2 E.
  unfold produced in E.
  rewrite (create_char_valid location1 bitmap1 w Hl1 Hb1 Hr1) in E.
  rewrite (create_char_valid location2 bitmap2 w Hl2 Hb2 Hr2) in E.
  fold (produced (device_write
    ([2; 3; location1 * 8; 0; len bitmap1; 0; 0; 0] ++ bitmap1)) w) in E.
  fold (produced (device_write
    ([2; 3; location2 * 8; 0; len bitmap2; 0; 0; 0] ++ bitmap2)) w) in E.
  rewrite !(produced_device_write _ w d Hd) in E.
  cbn [app] in E. injection E as El _ Eb.
  split; [lia|assumption].
Qed.

End Encoders.

(** ** Reading *)

Section Reading.
Context {host : Host}.

Ltac read_cases :=
  unfold read, readRaw, bind, device_read, call, print, ret;
  repeat (match goal with
          | |- context [_device ?w] =>
              is_var w; destruct (_device w) as [?d|]
          | |- context [dev_read ?d ?n ?t] =>
              destruct (dev_read d n t) as [[?raw|?e] ?d']
          | |- context [bytes_eqb ?a ?b] => destruct (bytes_eqb a b)
          | |- context [if ?b then _ else _] => is_var b; destruct b
          | |- context [subprocess_call ?a ?s] =>
              destruct (subprocess_call a s) as [[?code|?e] ?s']
          end; cbn).

(** X6: [read] never writes to the device and leaves [_vid], [_pid] and
    [_path] alone; without the beep flag it starts no process; and it
    prints only on the way to returning [None]: when it returns a key name
    or raises, standard output is as before. *)
Theorem read_footprint (timeout : option Z) (beep : bool) (w : World) :
  written (snd (read timeout beep w)) = written w /\
  _vid (snd (read timeout beep w)) = _vid w /\
  _pid (snd (read timeout beep w)) = _pid w /\
  _path (snd (read timeout beep w)) = _path w /\
  speaker (snd (read timeout false w)) = speaker w /\
  (forall name, fst (read timeout beep w) = Return (Some name) ->
     stdout (snd (read timeout beep w)) = stdout w) /\
  (forall e, fst (read timeout beep w) = Raise e ->
     stdout (snd (read timeout beep w)) = stdout w).
Proof.
  repeat split; try (intros x); read_cases; auto; discriminate.
Qed.

(** X7: [read] raises nothing of its own.  When it raises, either the
    session holds no device (the attribute is unbound), or the device read
    raised that exception, or the flag was set, a key was recognized and
    starting the beep program raised it.  Conversely an exception of the
    device read always comes out of [read], before anything is printed or
    any beep is started. *)
Theorem read_failure_modes (timeout : option Z) (beep : bool) (w : World) :
  (forall e, fst (read timeout beep w) = Raise e ->
     (_device w = None /\ e = AttributeError "_device") \/
     (exists d d', _device w = Some d /\ dev_read d 6 timeout = (Raise e, d')) \/
     (beep = true /\
      exists d d' raw args s',
        _device w = Some d /\ dev_read d 6 timeout = (Return raw, d') /\
        recognized raw /\ subprocess_call args (speaker w) = (Raise e, s'))) /\
  (forall d d' e, _device w = Some d -> dev_read d 6 timeout = (Raise e, d') ->
     read timeout beep w = (Raise e, with_device d' w)).
Proof.
  split.
  2:{ intros d d' e Hd Hr. unfold read, bind, device_read. now rewrite Hd, Hr. }
  intros e. unfold read, bind, device_read.
  destruct (_device w) as [d|] eqn:Hd;
    [|cbn; intros H; injection H as <-; left; auto].
  destruct (dev_read d 6 timeout) as [[raw|e0] d'] eqn:Hr;
    [|cbn; intros H; injection H as <-; right; left; eauto].
  assert (Hbeep : forall args (name : string),
    recognized raw ->
    fst (let (o, w') := (if beep then call args else ret tt) (with_device d' w) in
         match o with
         | Return _ => ret (Some name) w'
         | Raise e1 => (Raise e1, w')
         end) = Raise e ->
    beep = true /\
    exists d0 d'0 raw0 args0 s',
      Some d = Some d0 /\ dev_read d0 6 timeout = (Return raw0, d'0) /\
      recognized raw0 /\ subprocess_call args0 (speaker w) = (Raise e, s')).
  { intros args name Hrec. destruct beep; [|cbn; discriminate].
    unfold call. cbn [speaker with_device].
    destruct (subprocess_call args (speaker w)) as [[code|e1] s'] eqn:Es;
      cbn; [discriminate|].
    intros H; injection H as <-. split; [reflexivity|].
    exists d, d', raw, args, s'. auto. }
  destruct (bytes_eqb raw [1; 2; 58]) eqn:E1.
  { intros H. right; right. eapply Hbeep; [|exact H]. left. apply bytes_eqb_eq, E1. }
  destruct (bytes_eqb raw [1; 2; 59]) eqn:E2.
  { intros H. right; right. eapply Hbeep; [|exact H]. right; left. apply bytes_eqb_eq, E2. }
  destruct (bytes_eqb raw [1; 2; 60]) eqn:E3.
  { intros H. right; right. eapply Hbeep; [|exact H]. right; right. apply bytes_eqb_eq, E3. }
  cbn. discriminate.
Qed.

Lemma hex_value_digit (n : Z) : 0 <= n < 16 -> hex_value (hex_digit n) = Some n.
Proof.
  intros Hn.
  assert (Hall : forallb (fun i => match hex_value (hex_digit i) with
                                   | Some j => i =? j
                                   | None => false
                                   end)
                         (map Z.of_nat (seq 0 16)) = true) by reflexivity.
  rewrite forallb_forall in Hall. specialize (Hall n).
  destruct (hex_value (hex_digit n)) as [j|].
  - f_equal. symmetry. apply Z.eqb_eq, Hall.
    apply in_map_iff. exists (Z.to_nat n). split; [lia|apply in_seq; lia].
  - discriminate Hall.
    apply in_map_iff. exists (Z.to_nat n). split; [lia|apply in_seq; lia].
Qed.

Lemma unhex_hex (b : bytes) :
  Forall (fun x => 0 <= x < 256) b ->
  unhex (hex b) = Some b /\ String.length (hex b) = (2 * List.length b)%nat.
Proof.
  induction 1 as [|x rest Hx _ IH]; [split; reflexivity|].
  destruct IH as (IH1 & IH2). cbn [hex unhex String.length List.length].
  rewrite !hex_value_digit, IH1, IH2.
  - split; [|lia]. do 2 f_equal.
    pose proof (Z.div_mod x 16 ltac:(lia)). lia.
  - apply Z.mod_pos_bound. lia.
  - split; [apply Z.div_pos; lia|apply Z.div_lt_upper_bound; lia].
Qed.

(** X8: [readRaw] hands the report over unchanged in content: it asks the
    device for 63 bytes and returns text of two hexadecimal digits per byte,
    from which the bytes read are recovered exactly.  It interprets nothing:
    nothing is printed, no beep is started and nothing is written. *)
Theorem readRaw_lossless
  (timeout : option Z) (w : World) (d d' : Device) (raw : bytes) :
  _device w = Some d ->
  dev_read d 63 timeout = (Return raw, d') ->
  Forall (fun x => 0 <= x < 256) raw ->
  exists text,
    readRaw timeout w = (Return text, with_device d' w) /\
    unhex text = Some raw /\
    String.length text = (2 * List.length raw)%nat.
Proof.
  intros Hd Hr Hraw. exists (hex raw). split.
  - unfold readRaw, bind, device_read. now rewrite Hd, Hr.
  - now apply unhex_hex.
Qed.

Lemma read_keeps_device (timeout : option Z) (beep : bool) (w : World) (d : Device) :
  _device w = Some d -> exists d', _device (snd (read timeout beep w)) = Some d'.
Proof.
  intros Hd. unfold read, bind, device_read. rewrite Hd. read_cases; eauto.
Qed.

Lemma readRaw_keeps_device (timeout : option Z) (w : World) (d : Device) :
  _device w = Some d -> exists d', _device (snd (readRaw timeout w)) = Some d'.
Proof.
  intros Hd. unfold readRaw, bind, device_read. rewrite Hd. read_cases; eauto.
Qed.

End Reading.

(** ** The life of a session *)

Section Life.
Context {host : Host}.

Lemma void_snd {A : Type} (m : M A) (w : World) : snd (void m w) = snd (m w).
Proof. unfold void. now destruct (m w). Qed.

Lemma perform_keeps_device (r : request) (w : World) (d : Device) :
  _device w = Some d -> exists d', _device (snd (perform r w)) = Some d'.
Proof.
  intros Hd. destruct r as [timeout beep|timeout|data|op]; cbn [perform].
  - rewrite void_snd. now apply (read_keeps_device timeout beep w d).
  - rewrite void_snd. now apply (readRaw_keeps_device timeout w d).
  - destruct (device_write_bound data w d Hd) as (_ & H & _). unfold writeRaw. eauto.
  - now apply (run_keeps_device op w d).
Qed.

Lemma script_keeps_device (rs : list request) (w : World) (d : Device) :
  _device w = Some d -> exists d', _device (snd (script rs w)) = Some d'.
Proof.
  revert w d. induction rs as [|r rest IH]; intros w d Hd; cbn [script].
  - cbn. eauto.
  - unfold bind. destruct (perform_keeps_device r w d Hd) as [d1 H1].
    destruct (perform r w) as [[u|e] w1]; cbn [snd] in *; eauto.
Qed.

(** X9: what the constructor does.  It returns exactly when enumeration
    finds a device and opening the first one found succeeds; the session
    then holds that device and its path, whatever else was found.  With
    nothing found it raises [RuntimeError]; when opening the first device
    raises, that exception comes out.  In both failures [_device] is left
    as it was (unbound on a new object), and the constructor never writes
    to a device. *)
Theorem constructor_outcomes (w : World) :
  (fst (__init__ w) = Return tt <->
   exists path rest d,
     hid_enumerate 0x0CB6 0x0002 = path :: rest /\ hid_Device path = Return d) /\
  (forall path rest d,
     hid_enumerate 0x0CB6 0x0002 = path :: rest -> hid_Device path = Return d ->
     _device (snd (__init__ w)) = Some d /\
     _path (snd (__init__ w)) = Some path) /\
  (hid_enumerate 0x0CB6 0x0002 = [] ->
     fst (__init__ w) = Raise (RuntimeError "Cannot find USB LCD device") /\
     _device (snd (__init__ w)) = _device w) /\
  (forall path rest e,
     hid_enumerate 0x0CB6 0x0002 = path :: rest -> hid_Device path = Raise e ->
     fst (__init__ w) = Raise e /\ _device (snd (__init__ w)) = _device w) /\
  written (snd (__init__ w)) = written w.
Proof.
  unfold __init__, bind, set_vid, set_pid, set_path, lift, raise.
  destruct (hid_enumerate 3254 2) as [|path rest]; cbn;
    [|destruct (hid_Device path) as [d|e] eqn:Eo; cbn].
  all: repeat split; try discriminate; eauto.
  all: try intros (p & r & x & H & Hx).
  all: repeat match goal with
              | H : ex _ |- _ => destruct H
              | H : _ /\ _ |- _ => destruct H
              | H : _ :: _ = _ :: _ |- _ => injection H as <- <-
              end;
       congruence.
Qed.

(** X10: from a world where the session holds a device, no sequence of
    requests and calls of [close] unbinds it: in every world a caller can
    reach, [_device] is still bound, so no method fails on looking the
    attribute up. *)
Theorem device_stays_bound (w0 w : World) (d0 : Device) :
  _device w0 = Some d0 -> reachable w0 w -> exists d, _device w = Some d.
Proof.
  intros H0 Hreach. induction Hreach as [|w r _ (d & Hd)|w _ (d & Hd)].
  - eauto.
  - now apply (perform_keeps_device r w d).
  - rewrite (close_bound w d Hd). cbn. eauto.
Qed.

Variable released : Device -> Prop.
Hypothesis close_releases : forall d, released (dev_close d).

(** X11: the [with] statement releases the device on every way out.  When
    the constructor returns, the block's outcome is that of its body, a
    raised exception included, and afterwards the session holds the device
    released; leaving the block writes nothing more to the device.  When
    the constructor raises, the body does not run and the exception comes
    out of the statement. *)
Theorem with_session_releases (rs : list request) (w : World) :
  (fst (__init__ w) = Return tt ->
   fst (with_session (script rs) w) = fst (script rs (snd (__init__ w))) /\
   session_closed released (snd (with_session (script rs) w)) /\
   written (snd (with_session (script rs) w)) =
   written (snd (script rs (snd (__init__ w))))) /\
  (forall e, fst (__init__ w) = Raise e ->
   forall (A : Type) (body : M A),
     with_session body w = (Raise e, snd (__init__ w))).
Proof.
  split.
  - intros Hi. destruct (init_binds_device w Hi) as [d1 Hd1].
    unfold with_session. destruct (__init__ w) as [[[]|e] w1]; [|discriminate].
    cbn [fst snd] in *. unfold __enter__, ret, __exit__.
    destruct (script_keeps_device rs w1 d1 Hd1) as [d3 Hd3].
    destruct (script rs w1) as [o w3]. cbn [fst snd] in *.
    rewrite (close_bound w3 d3 Hd3). cbn [fst snd].
    repeat split. exists (dev_close d3). split; [reflexivity|apply close_releases].
  - intros e Hi A body. unfold with_session.
    destruct (__init__ w) as [[u|e1] w1]; [discriminate|].
    cbn in Hi. now injection Hi as ->.
Qed.

End Life.

(** ** On the bench, again *)

Lemma encoders_frame_reports_witness :
  Forall framed (produced (run (CreateChar 7 [0x1F; 0x11; 0x1F])) (opened [])) /\
  produced (run (CreateChar 7 [0x1F; 0x11; 0x1F])) (opened []) =
  [[0x02; 0x03; 56; 0; 3; 0; 0; 0; 0x1F; 0x11; 0x1F]].
Proof.
  split; [|reflexivity].
  exact (proj1 (proj2 (encoders_frame_reports (host := strict_host)
                         (CreateChar 7 [0x1F; 0x11; 0x1F]) (opened [])
                         (mkBench true [] []) eq_refl)) eq_refl).
Defined.

Lemma write_line_is_padded_write_string_witness :
  write_line [72; 105]%N 1 (opened []) =
  write_string ([72; 105] ++ repeat 32 38)%N 1 0 (opened []).
Proof.
  exact (write_line_is_padded_write_string (host := strict_host)
           [72; 105]%N 1 (opened []) ltac:(lia)).
Defined.

Lemma write_string_injective_witness :
  [72; 105]%N = [72; 105]%N /\ 1 = 1 /\ 5 = 5.
Proof.
  apply (write_string_injective (host := strict_host)
           [72; 105]%N [72; 105]%N 1 1 5 5 (opened []) (mkBench true [] []));
    try reflexivity; try lia; try (cbn; lia);
    repeat constructor.
Defined.

Lemma create_char_injective_witness :
  3 = 3 /\ [0x1F; 0x11] = [0x1F; 0x11].
Proof.
  apply (create_char_injective (host := strict_host)
           3 3 [0x1F; 0x11] [0x1F; 0x11] (opened []) (mkBench true [] []));
    try reflexivity; try lia; try (cbn; lia);
    repeat constructor; lia.
Defined.

Lemma readRaw_lossless_witness :
  exists text,
    readRaw None (opened [[0x01; 0x02; 0x3A]]) =
    (Return text,
     with_device (host := strict_host) (mkBench true [] [])
       (opened [[0x01; 0x02; 0x3A]])) /\
    unhex text = Some [0x01; 0x02; 0x3A] /\
    String.length text = 6%nat.
Proof.
  apply (readRaw_lossless (host := strict_host) None
           (opened [[0x01; 0x02; 0x3A]])
           (mkBench true [[0x01; 0x02; 0x3A]] []) (mkBench true [] [])
           [0x01; 0x02; 0x3A] eq_refl eq_refl).
  repeat constructor; lia.
Defined.

Lemma device_stays_bound_witness :
  exists d,
    _device (snd (perform (Encode Clear)
                    (snd (close (snd (perform (Read None true)
                                        (opened [key_left]))))))) = Some d.
Proof.
  apply (device_stays_bound (host := strict_host)
           (opened [key_left]) _ (mkBench true [key_left] []) eq_refl).
  apply reach_perform, reach_close, reach_perform, reach_start.
Defined.

(** A block that clears the display and then sends a line number the
    driver rejects: the assertion error comes out of the block and the
    device is released. *)
Lemma with_session_releases_witness :
  fst (with_session (script [Encode Clear; Encode (WriteLine [72]%N 2)])
         (@blank strict_host [])) =
  Raise (AssertionError "Line must be 0 or 1.") /\
  session_closed (host := strict_host) bench_released
    (snd (with_session (script [Encode Clear; Encode (WriteLine [72]%N 2)])
            (@blank strict_host []))).
Proof.
  destruct (with_session_releases (host := strict_host) bench_released
              bench_close_releases
              [Encode Clear; Encode (WriteLine [72]%N 2)] (@blank strict_host []))
    as (H & _).
  destruct (H eq_refl) as (H1 & H2 & _).
  split; [exact H1|exact H2].
Defined.

(** Reading from a released device: the exception of
    the device read comes out of [read] and nothing is printed. *)
Lemma read_failure_modes_witness :
  read None true (snd (close (opened [key_select]))) =
  (Raise (HIDException "device closed"), snd (close (opened [key_select]))).
Proof.
  exact (proj2 (read_failure_modes (host := strict_host) None true
                  (snd (close (opened [key_select]))))
           (mkBench false [key_select] []) (mkBench false [key_select] [])
           (HIDException "device closed") eq_refl eq_refl).
Defined.

(** With nothing plugged in the constructor raises and binds no device. *)
Lemma constructor_outcomes_witness :
  fst (__init__ (@blank empty_host [])) =
    Raise (RuntimeError "Cannot find USB LCD device") /\
  _device (snd (__init__ (@blank empty_host []))) = None.
Proof.
  destruct (constructor_outcomes (host := empty_host) (@blank empty_host []))
    as (_ & _ & H & _).
  exact (H eq_refl).
Defined.
